(** * Store API: GET /customers/me/orders

    A shallow embedding of
    [packages/medusa/src/api/routes/store/customers/list-orders.ts]:
    the request handler, the two parameter classes it validates the query
    string against, and the lodash / JavaScript operations it is built
    from.  JavaScript objects are finite maps from property names to
    values; an absent property reads as [undefined]. *)

From Stdlib Require Import Ascii String QArith.
From stdpp Require Import gmap strings list fin_maps.

Open Scope string_scope.
Set Warnings "-register-all,-clear-no-such-hyp".

(** ** JavaScript values *)

(** A JavaScript number: a finite one is kept as the rational it denotes. *)
Inductive number :=
| NaN
| Infinity (negative : bool)
| Finite (q : Q).

Inductive value :=
| VUndefined
| VNull
| VBool (b : bool)
| VNum (n : number)
| VStr (s : string)
| VArr (elems : list value)
| VObj (props : gmap string value).

(** Reading a property: [o.k], [undefined] when [o] has no such property. *)
Definition get (o : gmap string value) (k : string) : value :=
  default VUndefined (o !! k).

(** [=== null || === undefined] *)
Definition nullish (v : value) : bool :=
  match v with
  | VUndefined | VNull => true
  | _ => false
  end.

(** ToBoolean: the falsy values are [undefined], [null], [false], [0],
    [NaN] and the empty string; every array and every object is truthy. *)
Definition truthy (v : value) : bool :=
  match v with
  | VUndefined | VNull => false
  | VBool b => b
  | VNum NaN => false
  | VNum (Infinity _) => true
  | VNum (Finite q) => negb (Qnum q =? 0)%Z
  | VStr s => negb (String.eqb s "")
  | VArr _ | VObj _ => true
  end.

(** [s.split(",")] *)
Fixpoint split_comma (s : string) : list string :=
  match s with
  | EmptyString => [""]
  | String c rest =>
      if Ascii.eqb c ","%char then "" :: split_comma rest
      else match split_comma rest with
           | piece :: pieces => String c piece :: pieces
           | [] => [String c ""]
           end
  end.

(** [xs.includes(x)] on an array of strings *)
Definition includes (xs : list string) (x : string) : bool :=
  bool_decide (x ∈ xs).

(** ** lodash *)

(** [_.omit(o, keys)] *)
Definition omit (o : gmap string value) (keys : list string) : gmap string value :=
  foldr delete o keys.

(** [_.pickBy(o, identity)] keeps the properties whose value is truthy. *)
Definition pickBy_identity (o : gmap string value) : gmap string value :=
  filter (λ kv, truthy kv.2 = true) o.

(** ** What a request can do *)

Inductive Error :=
| ValidationError (properties : list string)
| TypeError.

(** The [listConfig] object literal. *)
Record ListConfig := {
  select : list string;
  relations : list string;
  skip : value;
  take : value;
  order : list (string * string)
}.

(** The handler either throws, or awaits [orderService.listAndCount] and
    goes on with the pair it resolves to, or sends a body with [res.json]. *)
Inductive Reply :=
| Throw (e : Error)
| ListAndCount (selector : gmap string value) (config : ListConfig)
    (k : value → value → Reply)
| Json (body : gmap string value).

Definition invokes_service (r : Reply) : bool :=
  match r with
  | ListAndCount _ _ _ => true
  | _ => false
  end.

(** ** Parameter classes *)

Inductive type_fn := TNumber | TDateComparisonOperator.

Inductive decorator :=
| IsOptional
| IsNumber
| IsString
| IsEnum (entity : list string) (each : bool)
| ValidateNested
| Type_ (f : type_fn).

(** One decorated property of a class, with its initializer if it has one. *)
Record property := {
  name : string;
  decorators : list decorator;
  initializer : option value
}.

Definition is_IsOptional (d : decorator) : bool :=
  match d with IsOptional => true | _ => false end.

Definition optional (p : property) : bool := existsb is_IsOptional (decorators p).

Definition type_of (p : property) : option type_fn :=
  head (omap (λ d, match d with Type_ f => Some f | _ => None end) (decorators p)).

(** A class is the list of its decorated properties; [extends] appends. *)
Definition lookup_property (cls : list property) (k : string) : option property :=
  List.find (λ p, String.eqb (name p) k) cls.

Definition declares (cls : list property) (k : string) : bool :=
  match lookup_property cls k with
  | Some _ => true
  | None => false
  end.

(** The instance [new cls()] before any property is copied into it. *)
Definition instantiate (cls : list property) : gmap string value :=
  list_to_map (omap (λ p, pair (name p) <$> initializer p) cls).

(** What class-validator may do with a property the class does not declare:
    leave it on the instance, remove it ([whitelist]), or report it
    ([forbidNonWhitelisted]). *)
Inductive extraneous := Keep | Strip | Forbid.

(** What the file imports and does not define itself. *)
Record Env := {
  (** the allow-lists exported by [../orders] *)
  allowedStoreOrdersFields : list string;
  allowedStoreOrdersRelations : list string;
  (** the values of the three enums of [models/order] *)
  OrderStatus : list string;
  FulfillmentStatus : list string;
  PaymentStatus : list string;
  (** [Number(v)], the built-in coercion *)
  Number : value → number;
  (** the class [DateComparisonOperator] of [types/common]: how a plain
      value is turned into an instance, and whether the instance passes the
      decorators of that class *)
  plainToDateComparisonOperator : value → value;
  validDateComparisonOperator : value → bool;
  (** how [validator] treats undeclared properties *)
  whitelist : extraneous
}.

(** ** Validation *)

(** The decorators are those of class-validator and class-transformer; each
    is given the meaning it has in these two libraries with their default
    options. *)

(** [@Type(() => T)]: [null] and [undefined] are left alone. *)
Definition convert (E : Env) (t : option type_fn) (v : value) : value :=
  match t with
  | None => v
  | Some f =>
      if nullish v then v
      else match f with
           | TNumber => VNum (Number E v)
           | TDateComparisonOperator => plainToDateComparisonOperator E v
           end
  end.

Definition plainToInstance (E : Env) (cls : list property)
    (plain : gmap string value) : gmap string value :=
  map_imap (λ k v, Some (convert E (lookup_property cls k ≫= type_of) v)) plain
    ∪ instantiate cls.

(** [isEnum(v, entity)]: [Object.values(entity).includes(v)] *)
Definition isEnum (entity : list string) (v : value) : bool :=
  match v with
  | VStr s => includes entity s
  | _ => false
  end.

(** One validation decorator on one value.  With [each], an array is
    checked element by element and any other value as it is. *)
Definition satisfies (E : Env) (d : decorator) (v : value) : bool :=
  match d with
  | IsOptional | Type_ _ => true
  | IsNumber => match v with VNum (Finite _) => true | _ => false end
  | IsString => match v with VStr _ => true | _ => false end
  | IsEnum entity each =>
      match each, v with
      | true, VArr elems => forallb (isEnum entity) elems
      | _, _ => isEnum entity v
      end
  | ValidateNested => validDateComparisonOperator E v
  end.

(** [@IsOptional()] skips every other decorator on [null] and [undefined]. *)
Definition valid_property (E : Env) (p : property) (v : value) : bool :=
  (optional p && nullish v) || forallb (λ d, satisfies E d v) (decorators p).

Definition violations (E : Env) (cls : list property)
    (inst : gmap string value) : list string :=
  name <$> List.filter (λ p, negb (valid_property E p (get inst (name p)))) cls.

Definition undeclared (cls : list property) (inst : gmap string value)
  : list string :=
  List.filter (λ k, negb (declares cls k)) (map_to_list inst).*1.

(** Modelled from the spec: [validator] of [utils/validator] is not part
    of this file.  It turns the raw query into an instance of the class
    (numeric properties coerced, initializers as defaults), checks every
    declared property against its decorators and throws a
    [ValidationError] naming the offending properties if there is one.
    The spec leaves open what becomes of a property that the class does
    not declare: [whitelist] ranges over the three possibilities. *)
Definition validator (E : Env) (cls : list property)
    (plain : gmap string value) : Error + gmap string value :=
  let toValidate := plainToInstance E cls plain in
  let errors :=
    (violations E cls toValidate ++
     match whitelist E with
     | Forbid => undeclared cls toValidate
     | _ => []
     end)%list in
  match errors with
  | [] =>
      inr match whitelist E with
          | Keep => toValidate
          | _ => filter (λ kv, declares cls kv.1 = true) toValidate
          end
  | _ => inl (ValidationError errors)
  end.

(** ** The endpoint *)

Definition StoreGetCustomersCustomerOrdersPaginationParams : list property :=
  [ {| name := "limit";
       decorators := [IsOptional; IsNumber; Type_ TNumber];
       initializer := Some (VNum (Finite 10)) |};
    {| name := "offset";
       decorators := [IsOptional; IsNumber; Type_ TNumber];
       initializer := Some (VNum (Finite 0)) |};
    {| name := "fields";
       decorators := [IsOptional; IsString];
       initializer := None |};
    {| name := "expand";
       decorators := [IsOptional; IsString];
       initializer := None |} ].

Definition StoreGetCustomersCustomerOrdersParams (E : Env) : list property :=
  StoreGetCustomersCustomerOrdersPaginationParams ++
  [ {| name := "id";
       decorators := [IsString; IsOptional];
       initializer := None |};
    {| name := "q";
       decorators := [IsString; IsOptional];
       initializer := None |};
    {| name := "status";
       decorators := [IsOptional; IsEnum (OrderStatus E) true];
       initializer := None |};
    {| name := "fulfillment_status";
       decorators := [IsOptional; IsEnum (FulfillmentStatus E) true];
       initializer := None |};
    {| name := "payment_status";
       decorators := [IsOptional; IsEnum (PaymentStatus E) true];
       initializer := None |};
    {| name := "display_id";
       decorators := [IsString; IsOptional];
       initializer := None |};
    {| name := "cart_id";
       decorators := [IsString; IsOptional];
       initializer := None |};
    {| name := "email";
       decorators := [IsString; IsOptional];
       initializer := None |};
    {| name := "region_id";
       decorators := [IsString; IsOptional];
       initializer := None |};
    {| name := "currency_code";
       decorators := [IsString; IsOptional];
       initializer := None |};
    {| name := "tax_rate";
       decorators := [IsString; IsOptional];
       initializer := None |};
    {| name := "created_at";
       decorators := [IsOptional; ValidateNested; Type_ TDateComparisonOperator];
       initializer := None |};
    {| name := "updated_at";
       decorators := [IsOptional; ValidateNested; Type_ TDateComparisonOperator];
       initializer := None |};
    {| name := "canceled_at";
       decorators := [ValidateNested; IsOptional; Type_ TDateComparisonOperator];
       initializer := None |} ].

(** Lines 83-89 and 91-97: the requested names that the allow-list
    includes.  [split] exists on strings only. *)
Definition requested (allowed : list string) (param : value)
  : Error + list string :=
  if truthy param then
    match param with
    | VStr s => inr (List.filter (includes allowed) (split_comma s))
    | _ => inl TypeError
    end
  else inr [].

(** What [requested] yields when it does not throw. *)
Definition kept (allowed : list string) (param : value) : list string :=
  match requested allowed param with
  | inr names => names
  | inl _ => []
  end.

(** [xs.length ? xs : fallback] *)
Definition or_default (xs fallback : list string) : list string :=
  match xs with
  | [] => fallback
  | _ => xs
  end.

Definition control_keys : list string := ["limit"; "offset"; "expand"; "fields"].

(** The default export.  [customer_id] is [req.user.customer_id] and
    [query] is [req.query]. *)
Definition handler (E : Env) (customer_id : value) (query : gmap string value)
  : Reply :=
  let id := customer_id in
  match validator E (StoreGetCustomersCustomerOrdersParams E) query with
  | inl e => Throw e
  | inr validated =>
      let validated := <["customer_id" := id]> validated in
      match requested (allowedStoreOrdersFields E) (get validated "fields") with
      | inl e => Throw e
      | inr includeFields =>
          match requested (allowedStoreOrdersRelations E)
                  (get validated "expand") with
          | inl e => Throw e
          | inr expandFields =>
              let listConfig :=
                {| select :=
                     or_default includeFields (allowedStoreOrdersFields E);
                   relations :=
                     or_default expandFields (allowedStoreOrdersRelations E);
                   skip := get validated "offset";
                   take := get validated "limit";
                   order := [("created_at", "DESC")] |} in
              let filterableFields := omit validated control_keys in
              ListAndCount (pickBy_identity filterableFields) listConfig
                (λ orders count,
                   Json (<["orders" := orders]>
                         (<["count" := count]>
                          (<["offset" := get validated "offset"]>
                           (<["limit" := get validated "limit"]> ∅)))))
          end
      end
  end.

(** ** The spec's vocabulary *)

(** The comma-separated entries of a [fields] or [expand] parameter; there
    are none when the parameter is absent, empty or not a string. *)
Definition entries (param : option value) : list string :=
  match param with
  | Some (VStr s) => if String.eqb s "" then [] else split_comma s
  | _ => []
  end.

(** A supplied value lies outside an enumeration when it is not one of its
    members or, for a list, when one of its elements is not. *)
Definition outside (entity : list string) (v : value) : Prop :=
  match v with
  | VUndefined | VNull => False
  | VArr elems => ∃ e, In e elems ∧ isEnum entity e = false
  | _ => isEnum entity v = false
  end.

(** The three enum-typed parameters with their enumerations. *)
Definition enum_parameters (E : Env) : list (string * list string) :=
  [ ("status", OrderStatus E);
    ("fulfillment_status", FulfillmentStatus E);
    ("payment_status", PaymentStatus E) ].

(** The parameters declared with [@IsString()] (lines 133-139, 143-149 and
    163-185). *)
Definition string_parameters : list string :=
  [ "fields"; "expand"; "id"; "q"; "display_id"; "cart_id"; "email";
    "region_id"; "currency_code"; "tax_rate" ].

(** The parameters declared with [@Type(() => Number)] (lines 123-131). *)
Definition number_parameters : list string := ["limit"; "offset"].

(** The parameters declared with [@Type(() => DateComparisonOperator)]
    (lines 187-200). *)
Definition date_parameters : list string :=
  ["created_at"; "updated_at"; "canceled_at"].

(** The filters declared without [@Type]: the string and the enum ones. *)
Definition plain_filters : list string :=
  [ "id"; "q"; "status"; "fulfillment_status"; "payment_status";
    "display_id"; "cart_id"; "email"; "region_id"; "currency_code";
    "tax_rate" ].

(** ** A concrete configuration to run the handler on *)

Module Sample.

(** [Number] on the decimal literals [[+-]ddd[.ddd]]; the empty string
    is [0] and any other text is [NaN]. *)
Fixpoint decimal (s : string) (acc : Z) (scale : positive)
    (dot digit : bool) : number :=
  match s with
  | EmptyString => if digit then Finite (Qred (acc # scale)) else NaN
  | String c rest =>
      if Ascii.eqb c "."%char then
        if dot then NaN else decimal rest acc scale true digit
      else
        let n := (Z.of_nat (nat_of_ascii c) - 48)%Z in
        if (0 <=? n)%Z && (n <=? 9)%Z then
          decimal rest (10 * acc + n)%Z
            (if dot then (10 * scale)%positive else scale) dot true
        else NaN
  end.

Definition negate (n : number) : number :=
  match n with
  | NaN => NaN
  | Infinity s => Infinity (negb s)
  | Finite q => Finite (Qopp q)
  end.

Definition ToNumber (v : value) : number :=
  match v with
  | VUndefined => NaN
  | VNull => Finite 0
  | VBool b => Finite (if b then 1 else 0)
  | VNum n => n
  | VStr "" => Finite 0
  | VStr (String "-" rest) => negate (decimal rest 0 1 false false)
  | VStr (String "+" rest) => decimal rest 0 1 false false
  | VStr s => decimal s 0 1 false false
  | VArr _ | VObj _ => NaN
  end.

(** A date comparison is an object whose bounds are strings. *)
Definition valid_bounds (v : value) : bool :=
  match v with
  | VObj bounds =>
      forallb (λ kb, includes ["lt"; "gt"; "lte"; "gte"] kb.1 &&
                     match kb.2 with VStr _ => true | _ => false end)
        (map_to_list bounds)
  | _ => false
  end.

Definition env (w : extraneous) : Env :=
  {| allowedStoreOrdersFields :=
       ["id"; "status"; "email"; "display_id"; "created_at"];
     allowedStoreOrdersRelations := ["items"; "shipping_address"; "payments"];
     OrderStatus :=
       ["pending"; "completed"; "archived"; "canceled"; "requires_action"];
     FulfillmentStatus :=
       ["not_fulfilled"; "fulfilled"; "shipped"; "returned"; "canceled"];
     PaymentStatus :=
       ["not_paid"; "awaiting"; "captured"; "refunded"; "canceled"];
     Number := ToNumber;
     plainToDateComparisonOperator := λ v, v;
     validDateComparisonOperator := valid_bounds;
     whitelist := w |}.

(** [?limit=5&offset=0&status=pending&fields=id,secret,email&email=] *)
Definition query : gmap string value :=
  <["limit" := VStr "5"]>
    (<["offset" := VStr "0"]>
       (<["status" := VStr "pending"]>
          (<["fields" := VStr "id,secret,email"]>
             (<["email" := VStr ""]> ∅)))).

(** The instance that validation of [query] returns. *)
Definition validated : gmap string value :=
  Eval vm_compute in
    match validator (env Keep) (StoreGetCustomersCustomerOrdersParams (env Keep))
            query with
    | inr instance => instance
    | inl _ => ∅
    end.

(** [?limit=10&offset=5&status=pending&fields=id&email=]: the filters of
    [query], another page and another projection. *)
Definition query_page2 : gmap string value :=
  <["limit" := VStr "10"]>
    (<["offset" := VStr "5"]>
       (<["status" := VStr "pending"]>
          (<["fields" := VStr "id"]>
             (<["email" := VStr ""]> ∅)))).

Definition validated_page2 : gmap string value :=
  Eval vm_compute in
    match validator (env Keep) (StoreGetCustomersCustomerOrdersParams (env Keep))
            query_page2 with
    | inr instance => instance
    | inl _ => ∅
    end.

(** [?limit=5&offset=0&fields=id,secret,email&q=shoes]: the page and the
    projection of [query], other filters. *)
Definition query_shoes : gmap string value :=
  <["limit" := VStr "5"]>
    (<["offset" := VStr "0"]>
       (<["fields" := VStr "id,secret,email"]>
          (<["q" := VStr "shoes"]> ∅))).

Definition validated_shoes : gmap string value :=
  Eval vm_compute in
    match validator (env Keep) (StoreGetCustomersCustomerOrdersParams (env Keep))
            query_shoes with
    | inr instance => instance
    | inl _ => ∅
    end.

(** [?created_at[gt]=2023-01-01] *)
Definition query_dated : gmap string value :=
  <["created_at" := VObj (<["gt" := VStr "2023-01-01"]> ∅)]> ∅.

Definition validated_dated : gmap string value :=
  Eval vm_compute in
    match validator (env Keep) (StoreGetCustomersCustomerOrdersParams (env Keep))
            query_dated with
    | inr instance => instance
    | inl _ => ∅
    end.

End Sample.

(** ** Lemmas on the JavaScript and lodash operations *)

Lemma lookup_omit (o : gmap string value) (keys : list string) (k : string) :
  omit o keys !! k = if bool_decide (k ∈ keys) then None else o !! k.
Proof.
  induction keys as [|k' keys IH].
  - done.
  - change (omit o (k' :: keys)) with (delete k' (omit o keys)).
    destruct (decide (k' = k)) as [->|Hne].
    + rewrite lookup_delete_eq, bool_decide_eq_true_2; [done | left].
    + rewrite lookup_delete_ne, IH by done.
      destruct (decide (k ∈ keys)) as [Hin|Hin].
      * rewrite !bool_decide_eq_true_2; [done | by right | done].
      * rewrite !bool_decide_eq_false_2; [done | | done].
        rewrite elem_of_cons. intros [?|?]; congruence.
Qed.

Lemma lookup_pickBy_identity (o : gmap string value) (k : string) :
  pickBy_identity o !! k =
  match o !! k with
  | Some v => if truthy v then Some v else None
  | None => None
  end.
Proof.
  unfold pickBy_identity. rewrite map_lookup_filter.
  destruct (o !! k) as [v|]; simpl; [|done].
  destruct (truthy v); case_guard; simpl; congruence.
Qed.

Lemma get_insert_eq (o : gmap string value) (k : string) (v : value) :
  get (<[k := v]> o) k = v.
Proof. unfold get. by rewrite lookup_insert_eq. Qed.

Lemma get_insert_ne (o : gmap string value) (k k' : string) (v : value) :
  k ≠ k' → get (<[k := v]> o) k' = get o k'.
Proof. intros. unfold get. by rewrite lookup_insert_ne. Qed.

Lemma filter_includes (allowed xs : list string) (x : string) :
  In x (List.filter (includes allowed) xs) ↔ In x xs ∧ x ∈ allowed.
Proof.
  rewrite List.filter_In. unfold includes.
  by rewrite bool_decide_eq_true.
Qed.

Example split_comma_ex :
  split_comma "id,secret,,email" = ["id"; "secret"; ""; "email"].
Proof. reflexivity. Qed.

(** An empty array is truthy: [pickBy] keeps it. *)
Example pickBy_identity_empty_array :
  pickBy_identity (<["status" := VArr []]> (<["email" := VStr ""]> ∅))
  = <["status" := VArr []]> ∅.
Proof. vm_compute. reflexivity. Qed.

(** ** Lemmas on validation *)

Section ValidatorFacts.

Variable E : Env.
Implicit Types (cls : list property) (plain inst validated : gmap string value).

Lemma lookup_plainToInstance cls plain k :
  plainToInstance E cls plain !! k =
  match plain !! k with
  | Some v => Some (convert E (lookup_property cls k ≫= type_of) v)
  | None => instantiate cls !! k
  end.
Proof.
  unfold plainToInstance.
  rewrite lookup_union, map_lookup_imap.
  destruct (plain !! k) as [v|]; simpl.
  - by destruct (instantiate cls !! k).
  - by rewrite (left_id None _).
Qed.

Lemma violations_nil cls inst :
  violations E cls inst = [] ↔
  ∀ p, In p cls → valid_property E p (get inst (name p)) = true.
Proof.
  unfold violations. split.
  - intros Hnil%fmap_nil_inv p Hin.
    destruct (valid_property E p (get inst (name p))) eqn:Hv; [done|].
    assert (In p (List.filter
      (λ p, negb (valid_property E p (get inst (name p)))) cls)) as Hp.
    { apply List.filter_In. by rewrite Hv. }
    rewrite Hnil in Hp. destruct Hp.
  - intros Hall.
    induction cls as [|p cls' IH]; [done|]. simpl.
    rewrite (Hall p) by (by left). simpl.
    apply IH. intros q Hq. apply Hall. by right.
Qed.

Lemma violations_elem cls inst p :
  In p cls → valid_property E p (get inst (name p)) = false →
  name p ∈ violations E cls inst.
Proof.
  intros Hin Hv. unfold violations.
  apply list_elem_of_fmap. exists p. split; [done|].
  apply list_elem_of_In, List.filter_In. by rewrite Hv.
Qed.

Lemma undeclared_nil cls inst :
  undeclared cls inst = [] ↔
  ∀ k, is_Some (inst !! k) → declares cls k = true.
Proof.
  unfold undeclared. split.
  - intros Hnil k [v Hk].
    destruct (declares cls k) eqn:Hd; [done|].
    assert (In k (List.filter (λ k, negb (declares cls k))
                    (map_to_list inst).*1)) as Hin.
    { apply List.filter_In. rewrite Hd. split; [|done].
      apply list_elem_of_In, list_elem_of_fmap. exists (k, v).
      split; [done|]. by apply elem_of_map_to_list. }
    rewrite Hnil in Hin. destruct Hin.
  - intros Hall.
    destruct (List.filter _ _) as [|k ks] eqn:Hf; [done|].
    assert (In k (k :: ks)) as Hin by (by left).
    rewrite <- Hf in Hin. apply List.filter_In in Hin as [Hin Hd].
    apply list_elem_of_In, list_elem_of_fmap in Hin as ([k' v] & -> & Hin).
    apply elem_of_map_to_list in Hin.
    simpl in Hd. rewrite (Hall k') in Hd; [done | by exists v].
Qed.

(** Validation succeeds exactly when no declared property is violated and,
    under [Forbid], no undeclared property is present. *)
Lemma validator_inr cls plain validated :
  validator E cls plain = inr validated ↔
  violations E cls (plainToInstance E cls plain) = [] ∧
  (whitelist E = Forbid → undeclared cls (plainToInstance E cls plain) = []) ∧
  validated =
    match whitelist E with
    | Keep => plainToInstance E cls plain
    | _ => filter (λ kv, declares cls kv.1 = true) (plainToInstance E cls plain)
    end.
Proof.
  unfold validator.
  destruct (violations E cls (plainToInstance E cls plain)) as [|e es] eqn:Hv;
    [|naive_solver].
  destruct (whitelist E); simpl.
  - naive_solver.
  - naive_solver.
  - destruct (undeclared cls (plainToInstance E cls plain)); naive_solver.
Qed.

(** It fails as soon as one declared property is violated. *)
Lemma validator_inl cls plain p :
  In p cls →
  valid_property E p (get (plainToInstance E cls plain) (name p)) = false →
  ∃ properties, validator E cls plain = inl (ValidationError properties) ∧
                name p ∈ properties.
Proof.
  intros Hin Hv. unfold validator.
  pose proof (violations_elem _ _ _ Hin Hv) as Hel.
  destruct (violations E cls (plainToInstance E cls plain)) as [|e es] eqn:He.
  { by apply not_elem_of_nil in Hel. }
  simpl. eexists. split; [done|].
  change (e :: es ++ ?l)%list with ((e :: es) ++ l)%list.
  apply elem_of_app. by left.
Qed.

(** A declared property of the validated instance is the converted raw
    value, or the initializer when the query has no such parameter. *)
Lemma validated_declared cls plain validated k :
  validator E cls plain = inr validated → declares cls k = true →
  validated !! k = plainToInstance E cls plain !! k.
Proof.
  intros (_ & _ & ->)%validator_inr Hd.
  destruct (whitelist E); [done| |];
    rewrite map_lookup_filter;
    destruct (plainToInstance E cls plain !! k); simpl; try done;
    by rewrite option_guard_True.
Qed.

Lemma instantiate_undeclared cls k :
  declares cls k = false → instantiate cls !! k = None.
Proof.
  unfold declares, lookup_property. intros Hd.
  apply not_elem_of_list_to_map_1. intros Hin.
  apply list_elem_of_fmap in Hin as ([k' v] & -> & Hin).
  apply list_elem_of_In in Hin.
  revert Hd Hin. induction cls as [|p cls' IH]; simpl; [done|].
  destruct (String.eqb (name p) k') eqn:He; [done|].
  intros Hd. destruct (initializer p) as [w|]; simpl; [|by apply IH].
  intros [[= Hn _]|Hin]; [|by apply IH].
  apply String.eqb_neq in He. done.
Qed.

Lemma undeclared_name cls k p :
  declares cls k = false → In p cls → k ≠ name p.
Proof.
  unfold declares, lookup_property. intros Hd Hin ->.
  induction cls as [|p' cls' IH]; simpl in *; [done|].
  destruct (String.eqb (name p') (name p)) eqn:He; [done|].
  destruct Hin as [->|Hin]; [|by apply IH].
  by rewrite String.eqb_refl in He.
Qed.

(** An undeclared property survives validation only under [Keep], and
    then as the raw value. *)
Lemma validated_undeclared cls plain validated k :
  validator E cls plain = inr validated → declares cls k = false →
  validated !! k =
    match whitelist E with
    | Keep => plain !! k
    | _ => None
    end.
Proof.
  intros Hok Hd. pose proof Hok as (_ & _ & ->)%validator_inr.
  pose proof (instantiate_undeclared _ _ Hd) as Hinit.
  assert (lookup_property cls k = None) as Hnone.
  { unfold declares in Hd. by destruct (lookup_property cls k). }
  destruct (whitelist E).
  - rewrite lookup_plainToInstance, Hnone, Hinit. by destruct (plain !! k).
  - rewrite map_lookup_filter.
    destruct (plainToInstance E cls plain !! k); simpl; [|done].
    rewrite option_guard_False; [done|]. simpl. by rewrite Hd.
  - rewrite map_lookup_filter.
    destruct (plainToInstance E cls plain !! k); simpl; [|done].
    rewrite option_guard_False; [done|]. simpl. by rewrite Hd.
Qed.

End ValidatorFacts.

(** ** Lemmas on the handler *)

Section EndpointFacts.

Variable E : Env.
Implicit Types (query validated : gmap string value) (id : value).

(** [fields] and [expand] reach the handler as the client sent them, and
    validation lets them through only as strings, [null] or [undefined]. *)
Lemma validated_string query validated k :
  validator E (StoreGetCustomersCustomerOrdersParams E) query = inr validated →
  k = "fields" ∨ k = "expand" →
  validated !! k = query !! k ∧
  (nullish (get validated k) = true ∨ ∃ s, get validated k = VStr s).
Proof.
  intros Hok Hk.
  assert (validated !! k = query !! k) as Hraw.
  { rewrite (validated_declared _ _ _ _ _ Hok)
      by (destruct Hk as [->| ->]; reflexivity).
    rewrite lookup_plainToInstance.
    destruct Hk as [->| ->]; by destruct (query !! _). }
  split; [done|].
  pose proof Hok as (Hnil & _ & _)%validator_inr.
  rewrite violations_nil in Hnil.
  unfold get. rewrite Hraw.
  destruct Hk as [->| ->].
  - specialize (Hnil {| name := "fields"; decorators := [IsOptional; IsString];
                        initializer := None |}).
    simpl in Hnil. unfold get in Hnil.
    rewrite lookup_plainToInstance in Hnil. simpl in Hnil.
    destruct (query !! "fields") as [[]|]; simpl in *; eauto;
      discriminate Hnil; tauto.
  - specialize (Hnil {| name := "expand"; decorators := [IsOptional; IsString];
                        initializer := None |}).
    simpl in Hnil. unfold get in Hnil.
    rewrite lookup_plainToInstance in Hnil. simpl in Hnil.
    destruct (query !! "expand") as [[]|]; simpl in *; eauto;
      discriminate Hnil; tauto.
Qed.

Lemma requested_kept allowed v :
  nullish v = true ∨ (∃ s, v = VStr s) →
  requested allowed v = inr (kept allowed v).
Proof.
  intros [Hn|[s ->]]; [by destruct v|].
  unfold kept, requested. by destruct (truthy _).
Qed.

(** A query that fails validation makes the handler throw at line 76. *)
Lemma handler_invalid id query e :
  validator E (StoreGetCustomersCustomerOrdersParams E) query = inl e →
  handler E id query = Throw e.
Proof. intros Hv. unfold handler. by rewrite Hv. Qed.

(** A query that passes validation always reaches
    [orderService.listAndCount], with this selector, this configuration
    and this continuation. *)
Lemma handler_valid id query validated :
  validator E (StoreGetCustomersCustomerOrdersParams E) query = inr validated →
  handler E id query =
  ListAndCount
    (pickBy_identity (omit (<["customer_id" := id]> validated) control_keys))
    {| select :=
         or_default (kept (allowedStoreOrdersFields E) (get validated "fields"))
           (allowedStoreOrdersFields E);
       relations :=
         or_default
           (kept (allowedStoreOrdersRelations E) (get validated "expand"))
           (allowedStoreOrdersRelations E);
       skip := get validated "offset";
       take := get validated "limit";
       order := [("created_at", "DESC")] |}
    (λ orders count,
       Json (<["orders" := orders]>
             (<["count" := count]>
              (<["offset" := get validated "offset"]>
               (<["limit" := get validated "limit"]> ∅))))).
Proof.
  intros Hok. unfold handler. rewrite Hok.
  rewrite !get_insert_ne by done.
  destruct (validated_string _ _ "fields" Hok) as [_ Hf]; [by left|].
  destruct (validated_string _ _ "expand" Hok) as [_ He]; [by right|].
  by rewrite (requested_kept _ _ Hf), (requested_kept _ _ He).
Qed.

(** Whenever the service is called, validation has succeeded and the
    call is the one of [handler_valid]. *)
Lemma handler_called id query s cfg k :
  handler E id query = ListAndCount s cfg k →
  ∃ validated,
    validator E (StoreGetCustomersCustomerOrdersParams E) query
      = inr validated ∧
    handler E id query =
      ListAndCount s cfg
        (λ orders count,
           Json (<["orders" := orders]>
                 (<["count" := count]>
                  (<["offset" := get validated "offset"]>
                   (<["limit" := get validated "limit"]> ∅))))) ∧
    s = pickBy_identity
          (omit (<["customer_id" := id]> validated) control_keys) ∧
    cfg =
      {| select :=
           or_default
             (kept (allowedStoreOrdersFields E) (get validated "fields"))
             (allowedStoreOrdersFields E);
         relations :=
           or_default
             (kept (allowedStoreOrdersRelations E) (get validated "expand"))
             (allowedStoreOrdersRelations E);
         skip := get validated "offset";
         take := get validated "limit";
         order := [("created_at", "DESC")] |}.
Proof.
  destruct (validator E _ query) as [e|validated] eqn:Hv.
  - by rewrite (handler_invalid _ _ _ Hv).
  - rewrite (handler_valid _ _ _ Hv). intros [= <- <- _].
    exists validated. by repeat split.
Qed.

(** The selector, property by property. *)
Lemma selector_lookup id validated k :
  pickBy_identity (omit (<["customer_id" := id]> validated) control_keys) !! k =
  if bool_decide (k ∈ control_keys) then None
  else match <["customer_id" := id]> validated !! k with
       | Some v => if truthy v then Some v else None
       | None => None
       end.
Proof.
  rewrite lookup_pickBy_identity, lookup_omit.
  by destruct (bool_decide (k ∈ control_keys)).
Qed.

(** The [customer_id] entry of the selector. *)
Lemma selector_customer_id id validated :
  pickBy_identity (omit (<["customer_id" := id]> validated) control_keys)
    !! "customer_id" = if truthy id then Some id else None.
Proof. rewrite selector_lookup, lookup_insert_eq. done. Qed.

(** The two initializers are the only defaults. *)
Lemma instantiate_Params :
  instantiate (StoreGetCustomersCustomerOrdersParams E) =
  <["limit" := VNum (Finite 10)]> (<["offset" := VNum (Finite 0)]> ∅).
Proof. reflexivity. Qed.

End EndpointFacts.

(** ** Properties of the endpoint *)

Section Properties.

Variable E : Env.
Implicit Types (query validated s : gmap string value) (id : value).

Lemma kept_entries allowed (param : option value) :
  kept allowed (default VUndefined param) =
  List.filter (includes allowed) (entries param).
Proof.
  destruct param as [[| |[]|[| |]|str| |]|]; try done.
  - unfold kept, requested. simpl. by destruct (Qnum q =? 0)%Z.
  - unfold kept, requested, entries. simpl. by destruct (String.eqb str "").
Qed.

Lemma or_default_allowed allowed xs f :
  In f (or_default (List.filter (includes allowed) xs) allowed) → f ∈ allowed.
Proof.
  destruct (List.filter (includes allowed) xs) as [|x l] eqn:Hf.
  - simpl. by rewrite list_elem_of_In.
  - change (or_default (x :: l) allowed) with (x :: l).
    rewrite <- Hf. by intros [_ ?]%filter_includes.
Qed.

(** When the customer id is truthy, the selector is scoped to it, whatever
    the query says. *)
Lemma truthy_customer_id_scoped id query s cfg k :
  truthy id = true →
  handler E id query = ListAndCount s cfg k →
  s !! "customer_id" = Some id.
Proof.
  intros Hid (validated & _ & _ & -> & _)%handler_called.
  by rewrite selector_customer_id, Hid.
Qed.

(** C1, at the input where it fails: a caller whose session carries the
    empty string as customer id, sending no query parameter at all.  The
    selector handed to [listAndCount] is the empty object, so it has no
    [customer_id] entry equal to the caller's id. *)
Theorem empty_customer_id_selects_everything :
  ∃ cfg k, handler E (VStr "") ∅ = ListAndCount ∅ cfg k.
Proof.
  destruct E as [? ? ? ? ? ? ? ? []]; eexists _, _; vm_compute; reflexivity.
Qed.

(** C9: when the customer id taken from the session is falsy (the empty
    string, [undefined], [null]), the selector that reaches
    [listAndCount] has no [customer_id] entry, whatever the client sent. *)
Theorem falsy_customer_id_unscoped id query s cfg k :
  truthy id = false →
  handler E id query = ListAndCount s cfg k →
  s !! "customer_id" = None.
Proof.
  intros Hid (validated & _ & _ & -> & _)%handler_called.
  by rewrite selector_customer_id, Hid.
Qed.

(** C2: [select] is made of the comma-separated entries of [fields] that
    the allow-list includes, in the order and number the client wrote
    them, or is the whole allow-list when no entry is left; [relations]
    is obtained in the same way from [expand].  Either way nothing outside
    the allow-list gets through. *)
Theorem fields_expand_sanitized id query s cfg k :
  handler E id query = ListAndCount s cfg k →
  select cfg =
    or_default
      (List.filter (includes (allowedStoreOrdersFields E))
         (entries (query !! "fields")))
      (allowedStoreOrdersFields E) ∧
  relations cfg =
    or_default
      (List.filter (includes (allowedStoreOrdersRelations E))
         (entries (query !! "expand")))
      (allowedStoreOrdersRelations E) ∧
  (∀ f, In f (select cfg) → f ∈ allowedStoreOrdersFields E) ∧
  (∀ r, In r (relations cfg) → r ∈ allowedStoreOrdersRelations E).
Proof.
  intros (validated & Hok & _ & _ & ->)%handler_called. simpl.
  destruct (validated_string E _ _ "fields" Hok) as [Hf _]; [by left|].
  destruct (validated_string E _ _ "expand" Hok) as [He _]; [by right|].
  unfold get. rewrite Hf, He, !kept_entries.
  repeat split; try done; intros ?; apply or_default_allowed.
Qed.

(** C4: the selector never has one of the keys [limit], [offset],
    [fields], [expand], and it has every other property of the validated
    object whose value is truthy, with that value. *)
Theorem selector_without_control_keys id query validated :
  validator E (StoreGetCustomersCustomerOrdersParams E) query = inr validated →
  ∃ s cfg k,
    handler E id query = ListAndCount s cfg k ∧
    (∀ key, key ∈ ["limit"; "offset"; "fields"; "expand"] → s !! key = None) ∧
    (∀ key v, key ∉ ["limit"; "offset"; "fields"; "expand"] →
       <["customer_id" := id]> validated !! key = Some v →
       truthy v = true → s !! key = Some v).
Proof.
  intros Hok. eexists _, _, _. split; [by apply handler_valid|]. split.
  - intros key Hkey. rewrite selector_lookup.
    rewrite bool_decide_eq_true_2; [done|].
    unfold control_keys. rewrite !elem_of_cons in *. tauto.
  - intros key v Hkey Hv Ht. rewrite selector_lookup.
    rewrite bool_decide_eq_false_2
      by (unfold control_keys; rewrite !elem_of_cons in *; tauto).
    by rewrite Hv, Ht.
Qed.

(** C5: a property of the validated object whose value is falsy (the empty
    string, [null], [undefined]) is not in the selector, and a parameter
    that the query does not have puts nothing in it. *)
Theorem falsy_filters_excluded id query validated :
  validator E (StoreGetCustomersCustomerOrdersParams E) query = inr validated →
  ∃ s cfg k,
    handler E id query = ListAndCount s cfg k ∧
    (∀ key, truthy (get (<["customer_id" := id]> validated) key) = false →
       s !! key = None) ∧
    (∀ key, key ≠ "customer_id" → query !! key = None → s !! key = None).
Proof.
  intros Hok. eexists _, _, _. split; [by apply handler_valid|]. split.
  - intros key Hf. rewrite selector_lookup. unfold get in Hf.
    destruct (bool_decide _); [done|].
    destruct (<["customer_id" := id]> validated !! key) as [v|]; [|done].
    simpl in Hf. by rewrite Hf.
  - intros key Hne Hq. rewrite selector_lookup.
    case_bool_decide as Hc; [done|].
    rewrite lookup_insert_ne by done.
    destruct (declares (StoreGetCustomersCustomerOrdersParams E) key) eqn:Hd.
    + rewrite (validated_declared _ _ _ _ _ Hok Hd), lookup_plainToInstance.
      rewrite Hq, instantiate_Params.
      unfold control_keys in Hc. rewrite !elem_of_cons in Hc.
      rewrite !lookup_insert_ne by (intros <-; apply Hc; auto). done.
    + rewrite (validated_undeclared _ _ _ _ _ Hok Hd).
      destruct (whitelist E); by rewrite ?Hq.
Qed.

Lemma outside_unsatisfied entity v :
  outside entity v →
  nullish v = false ∧ satisfies E (IsEnum entity true) v = false.
Proof.
  destruct v as [| | | | |elems|]; simpl; try done.
  intros (e & Hin & He). split; [done|].
  apply not_true_is_false. intros Hall.
  rewrite forallb_forall in Hall. by rewrite (Hall e Hin) in He.
Qed.

(** C6: a [status], [fulfillment_status] or [payment_status] value outside
    its enumeration makes the handler throw a [ValidationError] that names
    the parameter, and [listAndCount] is not called. *)
Theorem enum_violation_halts id query key entity v :
  In (key, entity) (enum_parameters E) →
  query !! key = Some v →
  outside entity v →
  ∃ properties,
    handler E id query = Throw (ValidationError properties) ∧
    key ∈ properties ∧
    invokes_service (handler E id query) = false.
Proof.
  intros Hin Hq [Hn Hs]%outside_unsatisfied.
  assert (∃ p, In p (StoreGetCustomersCustomerOrdersParams E) ∧
               name p = key ∧
               decorators p = [IsOptional; IsEnum entity true]) as (p & Hp & Hk & Hd).
  { simpl in Hin. destruct Hin as [[= <- <-]|[[= <- <-]|[[= <- <-]|[]]]];
      [ exists {| name := "status";
                  decorators := [IsOptional; IsEnum (OrderStatus E) true];
                  initializer := None |}
      | exists {| name := "fulfillment_status";
                  decorators := [IsOptional; IsEnum (FulfillmentStatus E) true];
                  initializer := None |}
      | exists {| name := "payment_status";
                  decorators := [IsOptional; IsEnum (PaymentStatus E) true];
                  initializer := None |} ];
      (split; [simpl; tauto | done]). }
  destruct (validator_inl E (StoreGetCustomersCustomerOrdersParams E) query p Hp)
    as (properties & Hv & Hel).
  { unfold get. rewrite lookup_plainToInstance, Hk, Hq.
    assert (lookup_property (StoreGetCustomersCustomerOrdersParams E) key
              ≫= type_of = None) as ->.
    { simpl in Hin. by destruct Hin as [[= <- <-]|[[= <- <-]|[[= <- <-]|[]]]]. }
    unfold valid_property, optional. rewrite Hd. simpl. simpl in Hs.
    by rewrite Hn, Hs. }
  exists properties. rewrite (handler_invalid _ _ _ _ Hv), <- Hk. done.
Qed.

(** C7: for a query that passes validation, [listAndCount] is called with
    [skip] the validated offset, [take] the validated limit and the order
    [{ created_at: "DESC" }], whatever the query holds. *)
Theorem list_config_pagination id query validated :
  validator E (StoreGetCustomersCustomerOrdersParams E) query = inr validated →
  ∃ s cfg k,
    handler E id query = ListAndCount s cfg k ∧
    skip cfg = get validated "offset" ∧
    take cfg = get validated "limit" ∧
    order cfg = [("created_at", "DESC")].
Proof.
  intros Hok. eexists _, _, _. split; [by apply handler_valid|]. done.
Qed.

Lemma validated_pagination query validated key :
  validator E (StoreGetCustomersCustomerOrdersParams E) query = inr validated →
  key = "limit" ∨ key = "offset" →
  get validated key =
    match query !! key with
    | Some v => if nullish v then v else VNum (Number E v)
    | None => VNum (Finite (if String.eqb key "limit" then 10 else 0))
    end.
Proof.
  intros Hok Hkey. unfold get.
  rewrite (validated_declared _ _ _ _ _ Hok)
    by (destruct Hkey as [->| ->]; reflexivity).
  rewrite lookup_plainToInstance.
  destruct Hkey as [->| ->]; by destruct (query !! _).
Qed.

(** C8: for a query that passes validation, whatever the service resolves
    to, the body sent is the object with the four properties [orders],
    [count], [offset] and [limit], the last two being the validated
    values: the coerced parameter when the query has one, 10 and 0
    otherwise. *)
Theorem response_body id query validated :
  validator E (StoreGetCustomersCustomerOrdersParams E) query = inr validated →
  ∃ s cfg k,
    handler E id query = ListAndCount s cfg k ∧
    (∀ orders count,
       k orders count =
       Json (<["orders" := orders]>
             (<["count" := count]>
              (<["offset" := get validated "offset"]>
               (<["limit" := get validated "limit"]> ∅))))) ∧
    (query !! "limit" = None → get validated "limit" = VNum (Finite 10)) ∧
    (query !! "offset" = None → get validated "offset" = VNum (Finite 0)) ∧
    (∀ v, query !! "limit" = Some v → nullish v = false →
       get validated "limit" = VNum (Number E v)) ∧
    (∀ v, query !! "offset" = Some v → nullish v = false →
       get validated "offset" = VNum (Number E v)).
Proof.
  intros Hok. eexists _, _, _. split; [by apply handler_valid|].
  split; [done|].
  rewrite (validated_pagination _ _ "limit" Hok) by (by left).
  rewrite (validated_pagination _ _ "offset" Hok) by (by right).
  repeat split.
  - by intros ->.
  - by intros ->.
  - by intros v -> ->.
  - by intros v -> ->.
Qed.

(** A declared parameter that the query does not have violates nothing. *)
Lemma valid_absent query p :
  In p (StoreGetCustomersCustomerOrdersParams E) →
  query !! name p = None →
  valid_property E p
    (get (plainToInstance E (StoreGetCustomersCustomerOrdersParams E) query)
       (name p)) = true.
Proof.
  intros Hin Hq. unfold get. rewrite lookup_plainToInstance, Hq.
  rewrite instantiate_Params.
  simpl in Hin.
  repeat (destruct Hin as [<-|Hin]; [vm_compute; reflexivity|]). destruct Hin.
Qed.

(** [limit] and [offset] pass validation as soon as they coerce to a
    finite number. *)
Lemma valid_pagination query p v q :
  In p StoreGetCustomersCustomerOrdersPaginationParams →
  name p = "limit" ∨ name p = "offset" →
  query !! name p = Some v → nullish v = false → Number E v = Finite q →
  valid_property E p
    (get (plainToInstance E (StoreGetCustomersCustomerOrdersParams E) query)
       (name p)) = true.
Proof.
  intros Hin Hname Hq Hn Hnum. unfold get.
  rewrite lookup_plainToInstance, Hq.
  simpl in Hin.
  destruct Hin as [<-|[<-|[<-|[<-|[]]]]]; simpl in Hname;
    try (by destruct Hname);
    unfold valid_property; simpl; by rewrite Hn, Hnum.
Qed.

(** C10: whatever finite numbers [limit] and [offset] coerce to, a
    fraction or a negative number included, the query passes validation,
    the two numbers are the [take] and [skip] of the call and the [limit]
    and [offset] of the body. *)
Theorem pagination_numbers_unchecked id vl vo ql qo :
  nullish vl = false → nullish vo = false →
  Number E vl = Finite ql → Number E vo = Finite qo →
  ∃ s cfg k,
    handler E id (<["limit" := vl]> (<["offset" := vo]> ∅))
      = ListAndCount s cfg k ∧
    take cfg = VNum (Finite ql) ∧
    skip cfg = VNum (Finite qo) ∧
    ∀ orders count,
      k orders count =
      Json (<["orders" := orders]>
            (<["count" := count]>
             (<["offset" := VNum (Finite qo)]>
              (<["limit" := VNum (Finite ql)]> ∅)))).
Proof.
  intros Hnl Hno Hl Ho.
  set (query := <["limit" := vl]> (<["offset" := vo]> ∅) : gmap string value).
  assert (∃ validated,
    validator E (StoreGetCustomersCustomerOrdersParams E) query
      = inr validated) as [validated Hok].
  { eexists. apply validator_inr. split; [|split; [|reflexivity]].
    - apply violations_nil. intros p Hin.
      destruct (decide (name p = "limit")) as [Hk|Hk].
      { simpl in Hin.
        repeat (destruct Hin as [<-|Hin]; [try discriminate Hk|]);
          [|destruct Hin].
        apply (valid_pagination _ _ vl ql); simpl; auto. }
      destruct (decide (name p = "offset")) as [Hk'|Hk'].
      { simpl in Hin.
        repeat (destruct Hin as [<-|Hin]; [try discriminate Hk'|]);
          [|destruct Hin].
        apply (valid_pagination _ _ vo qo); simpl; auto. }
      apply valid_absent; [done|].
      unfold query. rewrite !lookup_insert_ne, lookup_empty; done.
    - intros _. apply undeclared_nil. intros key.
      rewrite lookup_plainToInstance, instantiate_Params. unfold query.
      destruct (decide (key = "limit")) as [->|Hk]; [done|].
      destruct (decide (key = "offset")) as [->|Hk']; [done|].
      rewrite !lookup_insert_ne, lookup_empty by done.
      by intros [? ?]. }
  eexists _, _, _. split; [by apply handler_valid|]. simpl.
  rewrite (validated_pagination _ _ "limit" Hok) by (by left).
  rewrite (validated_pagination _ _ "offset" Hok) by (by right).
  unfold query.
  rewrite lookup_insert_eq, lookup_insert_ne, lookup_insert_eq by done.
  rewrite Hnl, Hno, Hl, Ho. repeat split; reflexivity.
Qed.

(** C3, at the input where it fails: a query whose only parameter is
    spelled [cancelled_at].  The class declares [canceled_at], not
    [cancelled_at], so the value is never read as a date comparison:
    depending on what validation does with undeclared properties, the
    request is rejected, or the parameter is dropped, or it reaches the
    selector as the raw value under its own name.  In no case is there a
    [canceled_at] entry. *)
Theorem cancelled_at_is_not_declared id v :
  declares (StoreGetCustomersCustomerOrdersParams E) "cancelled_at" = false ∧
  declares (StoreGetCustomersCustomerOrdersParams E) "canceled_at" = true ∧
  match whitelist E with
  | Forbid =>
      handler E id {["cancelled_at" := v]}
        = Throw (ValidationError ["cancelled_at"])
  | Strip =>
      ∃ s cfg k,
        handler E id {["cancelled_at" := v]} = ListAndCount s cfg k ∧
        s !! "cancelled_at" = None ∧ s !! "canceled_at" = None
  | Keep =>
      ∃ s cfg k,
        handler E id {["cancelled_at" := v]} = ListAndCount s cfg k ∧
        s !! "cancelled_at" = (if truthy v then Some v else None) ∧
        s !! "canceled_at" = None
  end.
Proof.
  split; [reflexivity|]. split; [reflexivity|].
  assert (bool_decide ("cancelled_at" ∈ control_keys) = false) as Hc1
    by reflexivity.
  assert (bool_decide ("canceled_at" ∈ control_keys) = false) as Hc2
    by reflexivity.
  assert (violations E (StoreGetCustomersCustomerOrdersParams E)
            (plainToInstance E (StoreGetCustomersCustomerOrdersParams E)
               {["cancelled_at" := v]}) = []) as Hv.
  { apply violations_nil. intros p Hin. apply valid_absent; [exact Hin|].
    apply lookup_singleton_ne.
    by apply (undeclared_name (StoreGetCustomersCustomerOrdersParams E)). }
  assert (whitelist E ≠ Forbid →
    ∃ validated,
      validator E (StoreGetCustomersCustomerOrdersParams E)
        {["cancelled_at" := v]} = inr validated ∧
      validated !! "cancelled_at" =
        match whitelist E with Keep => Some v | _ => None end ∧
      validated !! "canceled_at" = None) as Hvalid.
  { intros Hw. eexists. split; [|split].
    - apply validator_inr.
      split; [exact Hv|]. split; [intros Hf; destruct (Hw Hf)|reflexivity].
    - destruct (whitelist E) eqn:Hw'.
      + rewrite lookup_plainToInstance, lookup_singleton_eq. reflexivity.
      + rewrite map_lookup_filter, lookup_plainToInstance, lookup_singleton_eq.
        reflexivity.
      + by destruct Hw.
    - assert (plainToInstance E (StoreGetCustomersCustomerOrdersParams E)
                {["cancelled_at" := v]} !! "canceled_at" = None) as Hnone.
      { rewrite lookup_plainToInstance, lookup_singleton_ne by done.
        rewrite instantiate_Params.
        by rewrite !lookup_insert_ne, lookup_empty by done. }
      destruct (whitelist E); [exact Hnone| |];
        by rewrite map_lookup_filter, Hnone. }
  destruct (whitelist E) eqn:Hw.
  - destruct Hvalid as (validated & Hok & H1 & H2); [done|].
    eexists _, _, _. split; [exact (handler_valid E id _ _ Hok)|].
    rewrite !selector_lookup, Hc1, Hc2.
    rewrite !lookup_insert_ne by done.
    rewrite H1, H2. split; reflexivity.
  - destruct Hvalid as (validated & Hok & H1 & H2); [done|].
    eexists _, _, _. split; [exact (handler_valid E id _ _ Hok)|].
    rewrite !selector_lookup, Hc1, Hc2.
    rewrite !lookup_insert_ne by done.
    rewrite H1, H2. split; reflexivity.
  - apply handler_invalid. unfold validator. cbv zeta.
    rewrite Hv, Hw.
    assert (undeclared (StoreGetCustomersCustomerOrdersParams E)
              (plainToInstance E (StoreGetCustomersCustomerOrdersParams E)
                 {["cancelled_at" := v]}) = ["cancelled_at"]) as ->
      by (vm_compute; reflexivity).
    reflexivity.
Qed.

End Properties.

(** ** The properties on the sample configuration *)

Lemma falsy_customer_id_unscoped_witness :
  truthy (VStr "") = false ∧
  ∃ s cfg k,
    handler (Sample.env Keep) (VStr "") (<["customer_id" := VStr "cus_2"]> ∅)
      = ListAndCount s cfg k ∧
    s !! "customer_id" = None.
Proof.
  split; [reflexivity|]. eexists _, _, _.
  split; [vm_compute; reflexivity|].
  eapply (falsy_customer_id_unscoped (Sample.env Keep) (VStr "")
            (<["customer_id" := VStr "cus_2"]> ∅));
    [reflexivity | vm_compute; reflexivity].
Defined.

Lemma fields_expand_sanitized_witness :
  ∃ s cfg k,
    handler (Sample.env Keep) (VStr "cus_1") Sample.query
      = ListAndCount s cfg k ∧
    select cfg = ["id"; "email"] ∧
    relations cfg = ["items"; "shipping_address"; "payments"].
Proof.
  eexists _, _, _. split; [vm_compute; reflexivity|].
  edestruct (fields_expand_sanitized (Sample.env Keep) (VStr "cus_1")
               Sample.query) as (Hs & Hr & _); [vm_compute; reflexivity|].
  split; [rewrite Hs | rewrite Hr]; vm_compute; reflexivity.
Defined.

Lemma selector_without_control_keys_witness :
  ∃ s cfg k,
    handler (Sample.env Keep) (VStr "cus_1") Sample.query
      = ListAndCount s cfg k ∧
    (∀ key, key ∈ ["limit"; "offset"; "fields"; "expand"] → s !! key = None) ∧
    (∀ key v, key ∉ ["limit"; "offset"; "fields"; "expand"] →
       <["customer_id" := VStr "cus_1"]> Sample.validated !! key = Some v →
       truthy v = true → s !! key = Some v).
Proof.
  apply (selector_without_control_keys (Sample.env Keep) (VStr "cus_1")
           Sample.query Sample.validated).
  vm_compute. reflexivity.
Defined.

Lemma falsy_filters_excluded_witness :
  ∃ s cfg k,
    handler (Sample.env Keep) (VStr "cus_1") Sample.query
      = ListAndCount s cfg k ∧
    (∀ key,
       truthy (get (<["customer_id" := VStr "cus_1"]> Sample.validated) key)
         = false →
       s !! key = None) ∧
    (∀ key, key ≠ "customer_id" → Sample.query !! key = None →
       s !! key = None).
Proof.
  apply (falsy_filters_excluded (Sample.env Keep) (VStr "cus_1")
           Sample.query Sample.validated).
  vm_compute. reflexivity.
Defined.

Lemma enum_violation_halts_witness :
  ∃ properties,
    handler (Sample.env Keep) (VStr "cus_1")
      (<["payment_status" := VArr [VStr "captured"; VStr "paid"]]> ∅)
      = Throw (ValidationError properties) ∧
    "payment_status" ∈ properties ∧
    invokes_service
      (handler (Sample.env Keep) (VStr "cus_1")
         (<["payment_status" := VArr [VStr "captured"; VStr "paid"]]> ∅))
      = false.
Proof.
  apply (enum_violation_halts (Sample.env Keep) (VStr "cus_1") _
           "payment_status" (PaymentStatus (Sample.env Keep))
           (VArr [VStr "captured"; VStr "paid"])).
  - simpl. tauto.
  - vm_compute. reflexivity.
  - exists (VStr "paid"). split; [simpl; tauto | vm_compute; reflexivity].
Defined.

Lemma list_config_pagination_witness :
  ∃ s cfg k,
    handler (Sample.env Keep) (VStr "cus_1") Sample.query
      = ListAndCount s cfg k ∧
    skip cfg = get Sample.validated "offset" ∧
    take cfg = get Sample.validated "limit" ∧
    order cfg = [("created_at", "DESC")].
Proof.
  apply (list_config_pagination (Sample.env Keep) (VStr "cus_1")
           Sample.query Sample.validated).
  vm_compute. reflexivity.
Defined.

Lemma response_body_witness :
  ∃ s cfg k,
    handler (Sample.env Keep) (VStr "cus_1") Sample.query
      = ListAndCount s cfg k ∧
    (∀ orders count,
       k orders count =
       Json (<["orders" := orders]>
             (<["count" := count]>
              (<["offset" := get Sample.validated "offset"]>
               (<["limit" := get Sample.validated "limit"]> ∅))))) ∧
    (Sample.query !! "limit" = None →
       get Sample.validated "limit" = VNum (Finite 10)) ∧
    (Sample.query !! "offset" = None →
       get Sample.validated "offset" = VNum (Finite 0)) ∧
    (∀ v, Sample.query !! "limit" = Some v → nullish v = false →
       get Sample.validated "limit" = VNum (Number (Sample.env Keep) v)) ∧
    (∀ v, Sample.query !! "offset" = Some v → nullish v = false →
       get Sample.validated "offset" = VNum (Number (Sample.env Keep) v)).
Proof.
  apply (response_body (Sample.env Keep) (VStr "cus_1")
           Sample.query Sample.validated).
  vm_compute. reflexivity.
Defined.

Lemma pagination_numbers_unchecked_witness :
  ∃ s cfg k,
    handler (Sample.env Keep) (VStr "cus_1")
      (<["limit" := VStr "2.5"]> (<["offset" := VStr "-3"]> ∅))
      = ListAndCount s cfg k ∧
    take cfg = VNum (Finite (5 # 2)) ∧
    skip cfg = VNum (Finite (-3)) ∧
    ∀ orders count,
      k orders count =
      Json (<["orders" := orders]>
            (<["count" := count]>
             (<["offset" := VNum (Finite (-3))]>
              (<["limit" := VNum (Finite (5 # 2))]> ∅)))).
Proof.
  apply (pagination_numbers_unchecked (Sample.env Keep) (VStr "cus_1")
           (VStr "2.5") (VStr "-3") (5 # 2) (-3));
    vm_compute; reflexivity.
Defined.

(** ** Further properties of the handler *)

Section Further.

Variable E : Env.
Implicit Types (query validated s : gmap string value) (id : value).

(** The validated instance, property by property, in terms of the query. *)
Lemma validated_lookup query validated key :
  validator E (StoreGetCustomersCustomerOrdersParams E) query = inr validated →
  validated !! key =
    if declares (StoreGetCustomersCustomerOrdersParams E) key then
      match query !! key with
      | Some v =>
          Some (convert E
                  (lookup_property (StoreGetCustomersCustomerOrdersParams E) key
                     ≫= type_of) v)
      | None => instantiate (StoreGetCustomersCustomerOrdersParams E) !! key
      end
    else match whitelist E with
         | Keep => query !! key
         | _ => None
         end.
Proof.
  intros Hok.
  destruct (declares (StoreGetCustomersCustomerOrdersParams E) key) eqn:Hd.
  - rewrite (validated_declared _ _ _ _ _ Hok Hd).
    apply lookup_plainToInstance.
  - apply (validated_undeclared _ _ _ _ _ Hok Hd).
Qed.

Lemma validator_inl_inv cls query e :
  validator E cls query = inl e →
  ∃ properties, e = ValidationError properties ∧ properties ≠ [].
Proof.
  unfold validator. cbv zeta.
  destruct (violations E cls (plainToInstance E cls query) ++ _)%list
    as [|x l] eqn:Herr.
  - discriminate.
  - intros [= <-]. exists (x :: l). split; [reflexivity|discriminate].
Qed.

(** A declared property whose converted value violates its decorators
    stops the request at line 76. *)
Lemma parameter_violation_halts id query key p v :
  lookup_property (StoreGetCustomersCustomerOrdersParams E) key = Some p →
  query !! key = Some v →
  valid_property E p (convert E (type_of p) v) = false →
  ∃ properties,
    handler E id query = Throw (ValidationError properties) ∧
    key ∈ properties ∧
    invokes_service (handler E id query) = false.
Proof.
  intros Hp Hq Hv.
  pose proof Hp as [Hin Hname%String.eqb_eq]%List.find_some.
  destruct (validator_inl E (StoreGetCustomersCustomerOrdersParams E) query p Hin)
    as (properties & Hthrow & Hel).
  { unfold get. rewrite lookup_plainToInstance, Hname, Hq, Hp. exact Hv. }
  exists properties. rewrite (handler_invalid _ _ _ _ Hthrow), <- Hname.
  split; [reflexivity|]. split; [exact Hel|reflexivity].
Qed.

(** X1: a request is either rejected with a [ValidationError] that names at
    least one property, or it reaches [listAndCount]; in particular
    [split] is never applied to something that is not a string. *)
Theorem rejected_or_served id query :
  (∃ properties,
     handler E id query = Throw (ValidationError properties) ∧
     properties ≠ []) ∨
  (∃ s cfg k, handler E id query = ListAndCount s cfg k).
Proof.
  destruct (validator E (StoreGetCustomersCustomerOrdersParams E) query)
    as [e|validated] eqn:Hv.
  - left. destruct (validator_inl_inv _ _ _ Hv) as (properties & -> & Hne).
    exists properties. split; [exact (handler_invalid E id _ _ Hv)|exact Hne].
  - right. eexists _, _, _. exact (handler_valid E id _ _ Hv).
Qed.

(** X2: whenever the selector has a [customer_id] entry, its value is the
    id of the session, never the one the client may have put in the
    query. *)
Theorem customer_id_never_client_controlled id query s cfg k v :
  handler E id query = ListAndCount s cfg k →
  s !! "customer_id" = Some v →
  v = id.
Proof.
  intros (validated & _ & _ & -> & _)%handler_called.
  rewrite selector_customer_id. destruct (truthy id); congruence.
Qed.

(** X3: the id of the session decides nothing but the [customer_id] entry:
    two callers sending the same query are rejected with the same error,
    or are served with the same configuration, the same continuation and
    selectors that agree on every other key. *)
Theorem identity_only_scopes id1 id2 query :
  match handler E id1 query, handler E id2 query with
  | Throw e1, Throw e2 => e1 = e2
  | ListAndCount s1 cfg1 k1, ListAndCount s2 cfg2 k2 =>
      cfg1 = cfg2 ∧ k1 = k2 ∧
      ∀ key, key ≠ "customer_id" → s1 !! key = s2 !! key
  | _, _ => False
  end.
Proof.
  destruct (validator E (StoreGetCustomersCustomerOrdersParams E) query)
    as [e|validated] eqn:Hv.
  - by rewrite !(handler_invalid E _ _ _ Hv).
  - rewrite !(handler_valid E _ _ _ Hv).
    split; [reflexivity|]. split; [reflexivity|].
    intros key Hkey. rewrite !selector_lookup.
    by rewrite !lookup_insert_ne by done.
Qed.

(** X4: a string parameter that arrives as something else than a string
    (an array, an object) is rejected by name and [listAndCount] is not
    called. *)
Theorem string_parameter_type_checked id query key v :
  In key string_parameters →
  query !! key = Some v →
  nullish v = false →
  (∀ str, v ≠ VStr str) →
  ∃ properties,
    handler E id query = Throw (ValidationError properties) ∧
    key ∈ properties ∧
    invokes_service (handler E id query) = false.
Proof.
  intros Hin Hq Hn Hv. simpl in Hin.
  repeat (destruct Hin as [<-|Hin];
    [ eapply parameter_violation_halts; [reflexivity | exact Hq |];
      unfold valid_property, optional; simpl; rewrite Hn;
      destruct v; try reflexivity; by destruct (Hv s) |]).
  destruct Hin.
Qed.

(** X5: [limit] and [offset] are rejected by name when [Number] does not
    turn them into a finite number, and [listAndCount] is not called. *)
Theorem pagination_requires_finite_number id query key v :
  In key number_parameters →
  query !! key = Some v →
  nullish v = false →
  (∀ q, Number E v ≠ Finite q) →
  ∃ properties,
    handler E id query = Throw (ValidationError properties) ∧
    key ∈ properties ∧
    invokes_service (handler E id query) = false.
Proof.
  intros Hin Hq Hn Hv. simpl in Hin.
  repeat (destruct Hin as [<-|Hin];
    [ eapply parameter_violation_halts; [reflexivity | exact Hq |];
      unfold valid_property, optional; simpl; rewrite Hn; simpl;
      destruct (Number E v) as [| |q] eqn:Hnum; try reflexivity;
      by destruct (Hv q) |]).
  destruct Hin.
Qed.

(** X6: a date parameter whose [DateComparisonOperator] instance does not
    pass nested validation is rejected by name, and [listAndCount] is not
    called. *)
Theorem date_parameter_validated id query key v :
  In key date_parameters →
  query !! key = Some v →
  nullish v = false →
  nullish (plainToDateComparisonOperator E v) = false →
  validDateComparisonOperator E (plainToDateComparisonOperator E v) = false →
  ∃ properties,
    handler E id query = Throw (ValidationError properties) ∧
    key ∈ properties ∧
    invokes_service (handler E id query) = false.
Proof.
  intros Hin Hq Hn Hi Hv. simpl in Hin.
  destruct Hin as [<-|[<-|[<-|[]]]];
    (eapply parameter_violation_halts; [reflexivity | exact Hq |];
     unfold valid_property, optional; simpl; rewrite Hn; simpl;
     by rewrite Hi, Hv).
Qed.

(** What the selector holds for a declared filter that the query has. *)
Lemma served_filter id query validated key v :
  validator E (StoreGetCustomersCustomerOrdersParams E) query = inr validated →
  declares (StoreGetCustomersCustomerOrdersParams E) key = true →
  bool_decide (key ∈ control_keys) = false →
  key ≠ "customer_id" →
  query !! key = Some v →
  pickBy_identity (omit (<["customer_id" := id]> validated) control_keys) !! key =
    (let w := convert E
                (lookup_property (StoreGetCustomersCustomerOrdersParams E) key
                   ≫= type_of) v in
     if truthy w then Some w else None).
Proof.
  intros Hok Hd Hc Hne Hq.
  rewrite selector_lookup, Hc, lookup_insert_ne by congruence.
  by rewrite (validated_lookup _ _ _ Hok), Hd, Hq.
Qed.

(** A parameter of a query that passes validation satisfies the decorators
    of its property. *)
Lemma served_parameter_valid query validated key p v :
  validator E (StoreGetCustomersCustomerOrdersParams E) query = inr validated →
  lookup_property (StoreGetCustomersCustomerOrdersParams E) key = Some p →
  query !! key = Some v →
  valid_property E p (convert E (type_of p) v) = true.
Proof.
  intros Hok Hp Hq.
  pose proof Hp as [Hin Hname%String.eqb_eq]%List.find_some.
  pose proof (proj1 (validator_inr E _ _ _) Hok) as (Hnil & _ & _).
  rewrite violations_nil in Hnil. specialize (Hnil p Hin).
  unfold get in Hnil.
  by rewrite lookup_plainToInstance, Hname, Hq, Hp in Hnil.
Qed.

(** X7: when a request with a date parameter is served, the selector holds
    under that key the [DateComparisonOperator] instance made from the
    parameter, not the raw value, and that instance has passed nested
    validation. *)
Theorem date_parameter_forwarded id query validated key v :
  validator E (StoreGetCustomersCustomerOrdersParams E) query = inr validated →
  In key date_parameters →
  query !! key = Some v →
  nullish v = false →
  ∃ s cfg k,
    handler E id query = ListAndCount s cfg k ∧
    s !! key =
      (if truthy (plainToDateComparisonOperator E v)
       then Some (plainToDateComparisonOperator E v) else None) ∧
    (nullish (plainToDateComparisonOperator E v) = false →
     validDateComparisonOperator E (plainToDateComparisonOperator E v) = true).
Proof.
  intros Hok Hin Hq Hn.
  eexists _, _, _. split; [exact (handler_valid E id _ _ Hok)|].
  simpl in Hin.
  destruct Hin as [<-|[<-|[<-|[]]]];
    (split;
     [ rewrite (served_filter id _ _ _ v Hok) by (reflexivity || done);
       simpl; by rewrite Hn
     | intros Hi;
       match type of Hq with
       | _ !! ?key = _ =>
           eassert (Hvalid : _)
             by (eapply (served_parameter_valid _ _ key _ v Hok);
                 [reflexivity | exact Hq])
       end;
       unfold valid_property, optional in Hvalid; simpl in Hvalid;
       rewrite Hn in Hvalid; simpl in Hvalid; rewrite Hi in Hvalid;
       simpl in Hvalid;
       by destruct (validDateComparisonOperator E _) ]).
Qed.

(** X8: when a request is served, a string or enum filter of the query is
    in the selector with the value the client sent, unless that value is
    falsy. *)
Theorem plain_filter_forwarded id query validated key v :
  validator E (StoreGetCustomersCustomerOrdersParams E) query = inr validated →
  In key plain_filters →
  query !! key = Some v →
  ∃ s cfg k,
    handler E id query = ListAndCount s cfg k ∧
    s !! key = (if truthy v then Some v else None).
Proof.
  intros Hok Hin Hq.
  eexists _, _, _. split; [exact (handler_valid E id _ _ Hok)|].
  simpl in Hin.
  repeat (destruct Hin as [<-|Hin];
    [ by rewrite (served_filter id _ _ _ v Hok) by (reflexivity || done) |]).
  destruct Hin.
Qed.

(** X9: the selector does not depend on [limit], [offset], [expand] and
    [fields]: two served queries that are equal once these four are
    removed give the same selector. *)
Theorem selector_ignores_control_parameters id query1 query2 validated1 validated2 :
  validator E (StoreGetCustomersCustomerOrdersParams E) query1 = inr validated1 →
  validator E (StoreGetCustomersCustomerOrdersParams E) query2 = inr validated2 →
  omit query1 control_keys = omit query2 control_keys →
  ∃ s cfg1 k1 cfg2 k2,
    handler E id query1 = ListAndCount s cfg1 k1 ∧
    handler E id query2 = ListAndCount s cfg2 k2.
Proof.
  intros Hok1 Hok2 Heq.
  assert (pickBy_identity
            (omit (<["customer_id" := id]> validated1) control_keys) =
          pickBy_identity
            (omit (<["customer_id" := id]> validated2) control_keys)) as Hsel.
  { apply map_eq. intros key. rewrite !selector_lookup.
    destruct (bool_decide (key ∈ control_keys)) eqn:Hc; [reflexivity|].
    destruct (decide (key = "customer_id")) as [->|Hne].
    { by rewrite !lookup_insert_eq. }
    rewrite !lookup_insert_ne by congruence.
    assert (query1 !! key = query2 !! key) as Hq.
    { assert (omit query1 control_keys !! key = omit query2 control_keys !! key)
        as Hk by (by rewrite Heq).
      by rewrite !lookup_omit, Hc in Hk. }
    by rewrite (validated_lookup _ _ _ Hok1), (validated_lookup _ _ _ Hok2), Hq. }
  eexists _, _, _, _, _. split; [exact (handler_valid E id _ _ Hok1)|].
  rewrite Hsel. exact (handler_valid E id _ _ Hok2).
Qed.

(** X10: the list configuration and the body depend on [limit], [offset],
    [expand] and [fields] only: two served queries that agree on these
    four give the same configuration and the same continuation, whoever
    the callers are and whatever the filters. *)
Theorem list_config_ignores_filters id1 id2 query1 query2 validated1 validated2 :
  validator E (StoreGetCustomersCustomerOrdersParams E) query1 = inr validated1 →
  validator E (StoreGetCustomersCustomerOrdersParams E) query2 = inr validated2 →
  Forall (λ key, query1 !! key = query2 !! key) control_keys →
  ∃ s1 s2 cfg k,
    handler E id1 query1 = ListAndCount s1 cfg k ∧
    handler E id2 query2 = ListAndCount s2 cfg k.
Proof.
  intros Hok1 Hok2 Hall.
  assert (∀ key, In key control_keys → get validated1 key = get validated2 key)
    as Hget.
  { intros key Hin. unfold get.
    rewrite (validated_lookup _ _ _ Hok1), (validated_lookup _ _ _ Hok2).
    rewrite Forall_forall in Hall.
    by rewrite (Hall key) by (by apply list_elem_of_In). }
  eexists _, _, _, _. split; [exact (handler_valid E id1 _ _ Hok1)|].
  rewrite (handler_valid E id2 _ _ Hok2).
  rewrite (Hget "limit"), (Hget "offset"), (Hget "expand"), (Hget "fields")
    by (simpl; tauto).
  reflexivity.
Qed.

(** X11: the page echoed to the client is the page that was asked of the
    service: whatever [listAndCount] resolves to, the body has exactly the
    four properties [orders], [count], [offset] and [limit], where
    [offset] is the [skip] and [limit] the [take] of the call. *)
Theorem body_echoes_list_config id query s cfg k orders count :
  handler E id query = ListAndCount s cfg k →
  ∃ body,
    k orders count = Json body ∧
    body !! "orders" = Some orders ∧
    body !! "count" = Some count ∧
    body !! "offset" = Some (skip cfg) ∧
    body !! "limit" = Some (take cfg) ∧
    ∀ key, key ∉ ["orders"; "count"; "offset"; "limit"] → body !! key = None.
Proof.
  intros H.
  destruct (handler_called _ _ _ _ _ _ H) as (validated & _ & H2 & _ & ->).
  rewrite H in H2.
  assert (k = λ orders count,
            Json (<["orders" := orders]>
                  (<["count" := count]>
                   (<["offset" := get validated "offset"]>
                    (<["limit" := get validated "limit"]> ∅)))))
    as -> by congruence.
  eexists. split; [reflexivity|]. simpl.
  split; [by rewrite lookup_insert_eq|].
  split; [by rewrite lookup_insert_ne, lookup_insert_eq by done|].
  split; [by rewrite !lookup_insert_ne, lookup_insert_eq by done|].
  split; [by rewrite !lookup_insert_ne, lookup_insert_eq by done|].
  intros key Hkey. rewrite !elem_of_cons, elem_of_nil in Hkey.
  rewrite !lookup_insert_ne by (intros <-; tauto).
  apply lookup_empty.
Qed.

(** X14: the projection is never empty by the client's doing: [select] and
    [relations] are empty only if the allow-list itself is. *)
Theorem projection_never_empty id query s cfg k :
  handler E id query = ListAndCount s cfg k →
  (select cfg = [] → allowedStoreOrdersFields E = []) ∧
  (relations cfg = [] → allowedStoreOrdersRelations E = []).
Proof.
  intros (validated & _ & _ & _ & ->)%handler_called. simpl.
  split.
  - by destruct (kept (allowedStoreOrdersFields E) _).
  - by destruct (kept (allowedStoreOrdersRelations E) _).
Qed.

End Further.

(** X12: [_.omit] and [_.pickBy(_, identity)] commute: removing keys and
    then dropping the falsy values gives what dropping the falsy values
    and then removing the keys gives. *)
Theorem omit_pickBy_commute (o : gmap string value) (keys : list string) :
  pickBy_identity (omit o keys) = omit (pickBy_identity o) keys.
Proof.
  apply map_eq. intros key.
  rewrite lookup_pickBy_identity, !lookup_omit, lookup_pickBy_identity.
  by destruct (bool_decide (key ∈ keys)).
Qed.

Lemma split_comma_cons (s : string) :
  ∃ piece pieces, split_comma s = piece :: pieces.
Proof.
  destruct s as [|c rest]; simpl; [by eexists _, _|].
  destruct (Ascii.eqb c ","); [by eexists _, _|].
  destruct (split_comma rest); by eexists _, _.
Qed.

(** X13: [split(",")] cuts at every comma: the pieces of [a + "," + b] are
    the pieces of [a] followed by the pieces of [b]. *)
Theorem split_comma_app (a b : string) :
  split_comma (a ++ "," ++ b) = (split_comma a ++ split_comma b)%list.
Proof.
  induction a as [|c a IH]; [reflexivity|].
  change (String c a ++ "," ++ b) with (String c (a ++ "," ++ b)).
  simpl. destruct (Ascii.eqb c ","); [by rewrite IH|].
  rewrite IH. by destruct (split_comma_cons a) as (piece & pieces & ->).
Qed.

(** ** The further properties on the sample configuration *)

Lemma customer_id_never_client_controlled_witness :
  ∃ s cfg k v,
    handler (Sample.env Keep) (VStr "cus_1")
      (<["customer_id" := VStr "cus_2"]> ∅) = ListAndCount s cfg k ∧
    s !! "customer_id" = Some v ∧
    v = VStr "cus_1".
Proof.
  eexists _, _, _, _.
  split; [vm_compute; reflexivity|]. split; [vm_compute; reflexivity|].
  eapply (customer_id_never_client_controlled (Sample.env Keep) (VStr "cus_1")
            (<["customer_id" := VStr "cus_2"]> ∅));
    vm_compute; reflexivity.
Defined.

Lemma string_parameter_type_checked_witness :
  ∃ properties,
    handler (Sample.env Keep) (VStr "cus_1")
      (<["fields" := VArr [VStr "id"]]> ∅)
      = Throw (ValidationError properties) ∧
    "fields" ∈ properties ∧
    invokes_service
      (handler (Sample.env Keep) (VStr "cus_1")
         (<["fields" := VArr [VStr "id"]]> ∅)) = false.
Proof.
  apply (string_parameter_type_checked (Sample.env Keep) (VStr "cus_1") _
           "fields" (VArr [VStr "id"])).
  - simpl. tauto.
  - vm_compute. reflexivity.
  - reflexivity.
  - intros str. discriminate.
Defined.

Lemma pagination_requires_finite_number_witness :
  ∃ properties,
    handler (Sample.env Keep) (VStr "cus_1") (<["limit" := VStr "ten"]> ∅)
      = Throw (ValidationError properties) ∧
    "limit" ∈ properties ∧
    invokes_service
      (handler (Sample.env Keep) (VStr "cus_1") (<["limit" := VStr "ten"]> ∅))
      = false.
Proof.
  apply (pagination_requires_finite_number (Sample.env Keep) (VStr "cus_1") _
           "limit" (VStr "ten")).
  - simpl. tauto.
  - vm_compute. reflexivity.
  - reflexivity.
  - intros q. vm_compute. discriminate.
Defined.

Lemma date_parameter_validated_witness :
  ∃ properties,
    handler (Sample.env Keep) (VStr "cus_1")
      (<["created_at" := VStr "yesterday"]> ∅)
      = Throw (ValidationError properties) ∧
    "created_at" ∈ properties ∧
    invokes_service
      (handler (Sample.env Keep) (VStr "cus_1")
         (<["created_at" := VStr "yesterday"]> ∅)) = false.
Proof.
  apply (date_parameter_validated (Sample.env Keep) (VStr "cus_1") _
           "created_at" (VStr "yesterday")).
  - simpl. tauto.
  - vm_compute. reflexivity.
  - reflexivity.
  - reflexivity.
  - reflexivity.
Defined.

Lemma date_parameter_forwarded_witness :
  ∃ s cfg k,
    handler (Sample.env Keep) (VStr "cus_1") Sample.query_dated
      = ListAndCount s cfg k ∧
    s !! "created_at" = Some (VObj (<["gt" := VStr "2023-01-01"]> ∅)) ∧
    (nullish (VObj (<["gt" := VStr "2023-01-01"]> ∅)) = false →
     Sample.valid_bounds (VObj (<["gt" := VStr "2023-01-01"]> ∅)) = true).
Proof.
  apply (date_parameter_forwarded (Sample.env Keep) (VStr "cus_1")
           Sample.query_dated Sample.validated_dated "created_at"
           (VObj (<["gt" := VStr "2023-01-01"]> ∅))).
  - vm_compute. reflexivity.
  - simpl. tauto.
  - vm_compute. reflexivity.
  - reflexivity.
Defined.

Lemma plain_filter_forwarded_witness :
  ∃ s cfg k,
    handler (Sample.env Keep) (VStr "cus_1") Sample.query
      = ListAndCount s cfg k ∧
    s !! "status" = Some (VStr "pending").
Proof.
  apply (plain_filter_forwarded (Sample.env Keep) (VStr "cus_1")
           Sample.query Sample.validated "status" (VStr "pending")).
  - vm_compute. reflexivity.
  - simpl. tauto.
  - vm_compute. reflexivity.
Defined.

Lemma selector_ignores_control_parameters_witness :
  ∃ s cfg1 k1 cfg2 k2,
    handler (Sample.env Keep) (VStr "cus_1") Sample.query
      = ListAndCount s cfg1 k1 ∧
    handler (Sample.env Keep) (VStr "cus_1") Sample.query_page2
      = ListAndCount s cfg2 k2.
Proof.
  apply (selector_ignores_control_parameters (Sample.env Keep) (VStr "cus_1")
           Sample.query Sample.query_page2
           Sample.validated Sample.validated_page2);
    vm_compute; reflexivity.
Defined.

Lemma list_config_ignores_filters_witness :
  ∃ s1 s2 cfg k,
    handler (Sample.env Keep) (VStr "cus_1") Sample.query
      = ListAndCount s1 cfg k ∧
    handler (Sample.env Keep) (VStr "cus_2") Sample.query_shoes
      = ListAndCount s2 cfg k.
Proof.
  apply (list_config_ignores_filters (Sample.env Keep)
           (VStr "cus_1") (VStr "cus_2") Sample.query Sample.query_shoes
           Sample.validated Sample.validated_shoes).
  - vm_compute. reflexivity.
  - vm_compute. reflexivity.
  - repeat constructor; vm_compute; reflexivity.
Defined.

Lemma body_echoes_list_config_witness :
  ∃ s cfg k,
    handler (Sample.env Keep) (VStr "cus_1") Sample.query
      = ListAndCount s cfg k ∧
    ∃ body,
      k (VArr []) (VNum (Finite 0)) = Json body ∧
      body !! "orders" = Some (VArr []) ∧
      body !! "count" = Some (VNum (Finite 0)) ∧
      body !! "offset" = Some (skip cfg) ∧
      body !! "limit" = Some (take cfg) ∧
      ∀ key, key ∉ ["orders"; "count"; "offset"; "limit"] → body !! key = None.
Proof.
  eexists _, _, _. split; [vm_compute; reflexivity|].
  eapply (body_echoes_list_config (Sample.env Keep) (VStr "cus_1")
            Sample.query).
  vm_compute. reflexivity.
Defined.

Lemma projection_never_empty_witness :
  ∃ s cfg k,
    handler (Sample.env Keep) (VStr "cus_1")
      (<["fields" := VStr "secret"]> ∅) = ListAndCount s cfg k ∧
    (select cfg = [] → allowedStoreOrdersFields (Sample.env Keep) = []) ∧
    (relations cfg = [] → allowedStoreOrdersRelations (Sample.env Keep) = []).
Proof.
  eexists _, _, _. split; [vm_compute; reflexivity|].
  eapply (projection_never_empty (Sample.env Keep) (VStr "cus_1")
            (<["fields" := VStr "secret"]> ∅)).
  vm_compute. reflexivity.
Defined.
